(** * Gauss-Newton solvers of optimistix: [optimistix/_solver/gauss_newton.py]

  A shallow embedding of [NewtonDescent], [_GaussNewtonState],
  [_line_search_fn], [AbstractGaussNewton] and [GaussNewton], and the
  properties of them that the specification states.

  Conventions of the embedding.
  - The numeric runtime (JAX) is external.  Scalars are a type with the
    arithmetic the module uses ([Arith]); [jnp.inf] exists where the scalar
    type has an infinity ([Infinity]).  Two instances are given below:
    IEEE binary64 floats, on which every definition runs, and the real
    numbers, the exact arithmetic in which the algebraic property of the
    normalised step is stated.  Scalars carry no dtype.
  - A PyTree of arrays of a fixed structure is the vector of its leaves,
    [vec Scalar n]: the type variable [Y] of the source is [vec Scalar n],
    [Out] is [vec Scalar m].  The [ω] arithmetic of equinox is elementwise.
  - An [options] dictionary is a [gmap string PyValue]; Python exceptions
    are the left summand of the result of a call that can raise. *)

From Stdlib Require Import Reals Lra Floats.
From stdpp Require Import base option strings gmap vector.

Set Default Proof Using "Type".

(** ** Python exceptions *)

(** [KeyError] and [ValueError] are the two exceptions of the module itself
    and of the checks of lineax; [RuntimeError] is what a failed linear solve
    raises when it is asked to throw; [AttributeError] is the use of [.mv], or
    of an operator, on a value that is none, and [TypeError] stands for what
    an operator raises when it is applied to a value that is no vector. *)
Inductive exn : Type :=
| KeyError (key : string)
| ValueError (msg : string)
| RuntimeError
| AttributeError
| TypeError.

Definition py (A : Type) : Type := (exn + A)%type.

Definition raise {A} (e : exn) : py A := inl e.

#[global] Instance py_ret : MRet py := λ A x, inr x.
#[global] Instance py_bind : MBind py := λ A B f c,
  match c with
  | inl e => inl e
  | inr x => f x
  end.

(** ** The numeric runtime *)

(** Scalar arithmetic used by the module: unary minus, [-], [*], [/] and the
    literal [1.0]. *)
Class Arith (Scalar : Type) : Type := {
  s_neg : Scalar → Scalar;
  s_sub : Scalar → Scalar → Scalar;
  s_mul : Scalar → Scalar → Scalar;
  s_div : Scalar → Scalar → Scalar;
  s_one : Scalar;
}.

(** [jnp.inf]. *)
Class Infinity (Scalar : Type) : Type := jnp_inf : Scalar.

(** [jax.ShapeDtypeStruct], as far as a vector of leaves has a structure. *)
Record ShapeDtypeStruct : Type := { shape : nat }.

(** [jax.eval_shape(lambda: y)]. *)
Definition eval_shape {A k} (y : vec A k) : ShapeDtypeStruct := {| shape := k |}.

Section TreeArith.
Context {Scalar : Type} `{!Arith Scalar}.

(** [(c * v**ω).ω] *)
Definition tree_scale {k} (c : Scalar) (v : vec Scalar k) : vec Scalar k :=
  vmap (s_mul c) v.

(** [(v**ω / c).ω] *)
Definition tree_div {k} (v : vec Scalar k) (c : Scalar) : vec Scalar k :=
  vmap (λ x, s_div x c) v.

(** [(u**ω - v**ω).ω] *)
Definition tree_sub {k} (u v : vec Scalar k) : vec Scalar k :=
  vzip_with s_sub u v.

(** Modelled from the spec: [tree_full_like] of [_misc.py], which is not
    among the sources: a value of the same shape as [y], every leaf of
    which is [c]. *)
Definition tree_full_like {k} (y : vec Scalar k) (c : Scalar) : vec Scalar k :=
  vmap (λ _, c) y.
End TreeArith.

(** ** lineax *)

(** [lx.AbstractLinearOperator]: what the module uses of it is [mv]; the
    input structure is what [FunctionLinearOperator] is built with. *)
Record AbstractLinearOperator (A B : Type) : Type := {
  mv : A → B;
  in_structure : ShapeDtypeStruct;
}.
Arguments mv {A B} _ _.
Arguments in_structure {A B} _.

(** [lx.FunctionLinearOperator(fn, input_structure)] *)
Definition FunctionLinearOperator {A B} (fn : A → B) (input_structure : ShapeDtypeStruct)
  : AbstractLinearOperator A B :=
  {| mv := fn; in_structure := input_structure |}.

(** The [Solution] of [lx.linear_solve], as far as it is read. *)
Record lx_Solution (Y lx_RESULTS : Type) : Type := {
  lx_value : Y;
  lx_result : lx_RESULTS;
}.
Arguments lx_value {Y lx_RESULTS} _.
Arguments lx_result {Y lx_RESULTS} _.

(** The linear solvers [lx.AbstractLinearSolver] and the statuses
    [lx.RESULTS] are types [AbstractLinearSolver] and [lx_RESULTS] below.
    The solve that a solver makes of an operator and a vector, and
    [lx.AutoLinearSolver], are functions given to the definitions that call
    them; [lx.linear_solve] itself, with its checks of the arguments and
    its [throw], is [lx_linear_solve] below. *)

(** ** [RESULTS]

    The enumeration is declared in [_solution.py], which is not among the
    sources.  The module reads two of its members, compares members for
    equality, and promotes a lineax status to it; lineax compares the status
    of a solve with its own [successful]. *)
Class ResultsEnum (RESULTS lx_RESULTS : Type) : Type := {
  RESULTS_eq_dec :: EqDecision RESULTS;
  successful : RESULTS;
  nonlinear_max_steps_reached : RESULTS;
  promote : lx_RESULTS → RESULTS;
  lx_RESULTS_eq_dec :: EqDecision lx_RESULTS;
  lx_successful : lx_RESULTS;
}.

(** [RESULTS.where(pred, a, b)] *)
Definition RESULTS_where {RESULTS} (pred : bool) (a b : RESULTS) : RESULTS :=
  if pred then a else b.

(** ** [NewtonDescent] *)

Section Descent.
Context {Scalar : Type} `{!Arith Scalar} {n m : nat}.
Abbreviation Y := (vec Scalar n).
Abbreviation Out := (vec Scalar m).
Context {AbstractLinearSolver lx_RESULTS RESULTS : Type}.
Context `{!ResultsEnum RESULTS lx_RESULTS}.
Context {Args Aux Descent : Type}.
Context (linear_solve :
  AbstractLinearOperator Y Out → Out → AbstractLinearSolver → lx_Solution Y lx_RESULTS).

(** The values an [options] dictionary holds: [None], a Python [bool], a
    scalar array, an array of the structure of the residual, a linear
    operator from [Y] to [Out] or from [Out] to [Y], an auxiliary output, a
    descent.  The two kinds of operator differ by their structures: an
    operator from [Out] to [Y] in the place of [operator] has not the output
    structure of the vector, and an operator from [Y] to [Out] in the place
    of [operator_inv] does not take the vector. *)
Inductive PyValue : Type :=
| VNone
| VBool (b : bool)
| VScalar (s : Scalar)
| VTree (v : Out)
| VOperator (op : AbstractLinearOperator Y Out)
| VOperatorInv (op : AbstractLinearOperator Out Y)
| VAux (a : Aux)
| VDescent (d : Descent).

(** [d[key]] *)
Definition getitem (d : gmap string PyValue) (key : string) : py PyValue :=
  match d !! key with
  | Some v => mret v
  | None => raise (KeyError key)
  end.

(** [try: x = d[key]  except KeyError: x = None] *)
Definition getitem_or_None (d : gmap string PyValue) (key : string) : PyValue :=
  match d !! key with
  | Some v => v
  | None => VNone
  end.

(** [v is not None] *)
Definition is_not_None (v : PyValue) : bool :=
  match v with
  | VNone => false
  | _ => true
  end.

Record NewtonDescent : Type := {
  nd_norm : option (Y → Scalar);
  nd_linear_solver : AbstractLinearSolver;
}.

Definition no_operator_msg : string :=
  "At least one of `operator` or `operator_inv` must be passed to `NewtonDescent` via `options`.".

(** The messages of the two checks of [lx.linear_solve]. *)
Definition lineax_array_msg : string :=
  "`lineax.linear_solve(operator=...)` should be an `AbstractLinearOperator`, not a raw JAX array. If you are trying to pass a matrix then this should be passed as `lineax.MatrixLinearOperator(matrix)`.".

Definition lineax_structure_msg : string :=
  "Vector and operator structures do not match".

(** [lx.linear_solve(operator, vector, solver, throw=throw)].  An array in
    the place of the operator is refused with a [ValueError]; any other value
    that is no operator has not the attributes of one; an operator whose
    output has not the structure of the vector is refused with a
    [ValueError].  Then the solver solves, and when [throw] is set a status
    other than [successful] is raised as an error at run time; otherwise the
    solution is returned with its status. *)
Definition lx_linear_solve (operator vector : PyValue) (solver : AbstractLinearSolver)
    (throw : bool) : py (lx_Solution Y lx_RESULTS) :=
  match operator with
  | VScalar _ | VTree _ => raise (ValueError lineax_array_msg)
  | VOperator op =>
      match vector with
      | VTree v =>
          let out := linear_solve op v solver in
          if throw && negb (bool_decide (lx_result out = lx_successful))
          then raise RuntimeError
          else mret out
      | _ => raise (ValueError lineax_structure_msg)
      end
  | VOperatorInv _ => raise (ValueError lineax_structure_msg)
  | VNone | VBool _ | VAux _ | VDescent _ => raise AttributeError
  end.

(** [operator.mv(vector)]: a value that is no operator from [Out] to [Y] has
    no such method, or not for this vector; an operator raises on what is no
    vector. *)
Definition py_mv (operator vector : PyValue) : py Y :=
  match operator with
  | VOperatorInv inv =>
      match vector with
      | VTree v => mret (mv inv v)
      | _ => raise TypeError
      end
  | VOperator _ => raise TypeError
  | _ => raise AttributeError
  end.

(** Lines 86-101 of [NewtonDescent.__call__]: the Newton direction and the
    status of its computation.  [lx.linear_solve] is called with its default
    [throw=True]. *)
Definition newton_direction (self : NewtonDescent)
    (vector operator_inv operator : PyValue) : py (Y * RESULTS) :=
  if is_not_None operator_inv then
    newton ← py_mv operator_inv vector;
    mret (newton, successful)
  else if is_not_None operator then
    out ← lx_linear_solve operator vector (nd_linear_solver self) true;
    mret (lx_value out, promote (lx_result out))
  else raise (ValueError no_operator_msg).

(** [NewtonDescent.__call__] *)
Definition NewtonDescent_call (self : NewtonDescent)
    (step_size : Scalar) (args : Args) (options : gmap string PyValue)
  : py (Y * RESULTS) :=
  vector ← getitem options "vector";
  let operator_inv := getitem_or_None options "operator_inv" in
  let operator := getitem_or_None options "operator" in
  '(newton, result) ← newton_direction self vector operator_inv operator;
  let diff :=
    match nd_norm self with
    | None => newton
    | Some norm => tree_div newton (norm newton)
    end in
  mret (tree_scale (s_neg step_size) diff, result).
End Descent.

Arguments PyValue : clear implicits.
Arguments NewtonDescent : clear implicits.

(** ** The line search, as the solver consumes it *)

(** The state of the line search, as far as it is read:
    [line_sol.state.next_init]. *)
Record LineSearchState (Scalar : Type) : Type := { next_init : Scalar }.
Arguments next_init {Scalar} _.

(** Modelled from the spec: the [Solution] of [_solution.py], which is not
    among the sources, as [line_search] returns it: the new [y], the status,
    the auxiliary output of the accepted evaluation and the state with the
    recommended next initial step size. *)
Record Solution (Y Aux Scalar RESULTS : Type) : Type := {
  sol_value : Y;
  sol_result : RESULTS;
  sol_aux : Aux;
  sol_state : LineSearchState Scalar;
}.
Arguments sol_value {Y Aux Scalar RESULTS} _.
Arguments sol_result {Y Aux Scalar RESULTS} _.
Arguments sol_aux {Y Aux Scalar RESULTS} _.
Arguments sol_state {Y Aux Scalar RESULTS} _.

(** Modelled from the spec: [LearningRate] of [learning_rate.py], which is
    not among the sources: the line search of a fixed step size. *)
Record LearningRate (Scalar : Type) : Type := { learning_rate : Scalar }.
Arguments learning_rate {Scalar} _.

(** ** [_GaussNewtonState] *)

Record _GaussNewtonState (Scalar Y RESULTS : Type) : Type := {
  step_size : Scalar;
  diff : Y;
  f_val : Scalar;
  f_prev : Scalar;
  result : RESULTS;
}.
Arguments step_size {Scalar Y RESULTS} _.
Arguments diff {Scalar Y RESULTS} _.
Arguments f_val {Scalar Y RESULTS} _.
Arguments f_prev {Scalar Y RESULTS} _.
Arguments result {Scalar Y RESULTS} _.

(** ** [AbstractGaussNewton]

    The abstract attributes of the class are the fields of a record; the
    descent and the line search are of any type. *)
Record AbstractGaussNewton (Scalar Y Descent LineSearch : Type) : Type := {
  gn_rtol : Scalar;
  gn_atol : Scalar;
  gn_norm : Y → Scalar;
  gn_descent : Descent;
  gn_line_search : LineSearch;
}.
Arguments gn_rtol {Scalar Y Descent LineSearch} _.
Arguments gn_atol {Scalar Y Descent LineSearch} _.
Arguments gn_norm {Scalar Y Descent LineSearch} _.
Arguments gn_descent {Scalar Y Descent LineSearch} _.
Arguments gn_line_search {Scalar Y Descent LineSearch} _.

(** [jax.linearize(f, y, has_aux=True)]: the output and the auxiliary output
    of [f] at [y], and between them the linear map that the automatic
    differentiation [jvp] makes of [f] at [y]. *)
Definition jax_linearize {Y Out Aux : Type} (jvp : (Y → Out * Aux) → Y → Y → Out)
    (f : Y → Out * Aux) (y : Y) : Out * (Y → Out) * Aux :=
  (fst (f y), jvp f y, snd (f y)).

Section GaussNewton.
Context {Scalar : Type} `{!Arith Scalar} `{!Infinity Scalar} {n m : nat}.
Abbreviation Y := (vec Scalar n).
Abbreviation Out := (vec Scalar m).
Context {AbstractLinearSolver lx_RESULTS RESULTS : Type}.
Context `{!ResultsEnum RESULTS lx_RESULTS}.
Context {Args Aux AuxStruct Tags Descent LineSearch : Type}.
Abbreviation Options := (gmap string (PyValue Scalar n m Aux Descent)).
Abbreviation Fn := (Y → Args → Out * Aux).
Abbreviation State := (_GaussNewtonState Scalar Y RESULTS).

(** What the module imports from [_misc.py], [_line_search.py], lineax and
    JAX.  [line_search] is the line search where it returns a solution; an
    error that the descent raises inside it leaves [step] with it and is
    no result of [step]. *)
Context (AutoLinearSolver : option bool → AbstractLinearSolver).
Context (sum_squares : Out → Scalar).
Context (max_norm : Y → Scalar).
Context (cauchy_termination :
  Scalar → Scalar → (Y → Scalar) → Y → Y → Scalar → Scalar → RESULTS → bool * RESULTS).
Context (jvp : (Y → Out * Aux) → Y → Y → Out).
Context (line_search :
  (Y → Args → Scalar * Aux) → LineSearch → Y → Args → Options → bool → bool →
  Solution Y Aux Scalar RESULTS).

(** [_line_search_fn] *)
Definition _line_search_fn (fn : Fn) (y : Y) (args : Args) : Scalar * Aux :=
  let '(residual, aux) := fn y args in
  (sum_squares residual, aux).

(** [AbstractGaussNewton.init].  [sum_squares_struct] only gives the dtype of
    the two infinite scalars. *)
Definition init (self : AbstractGaussNewton Scalar Y Descent LineSearch)
    (fn : Fn) (y : Y) (args : Args) (options : Options)
    (f_struct : ShapeDtypeStruct) (aux_struct : AuxStruct) (tags : Tags) : State :=
  {| step_size := s_one;
     diff := tree_full_like y jnp_inf;
     f_val := jnp_inf;
     f_prev := jnp_inf;
     result := successful |}.

(** The dictionary [line_search_options] that [step] assembles. *)
Definition line_search_options (self : AbstractGaussNewton Scalar Y Descent LineSearch)
    (state : State) (residual : Out) (new_operator : AbstractLinearOperator Y Out)
    (f0 : Scalar) (aux : Aux) : Options :=
  <["init_step_size" := VScalar (step_size state)]> (
  <["vector" := VTree residual]> (
  <["operator" := VOperator new_operator]> (
  <["operator_inv" := VNone]> (
  <["f0" := VScalar f0]> (
  <["aux" := VAux aux]> (
  <["gauss_newton" := VBool true]> (
  <["descent" := VDescent (gn_descent self)]> ∅))))))).

(** Two locals of [step] by name, for the statements about them: the
    dictionary handed to the line search, and [line_sol]. *)
Definition step_options (self : AbstractGaussNewton Scalar Y Descent LineSearch)
    (fn : Fn) (y : Y) (args : Args) (state : State) : Options :=
  let '(residual, lin_fn, aux) := jax_linearize jvp (λ _y, fn _y args) y in
  line_search_options self state residual
    (FunctionLinearOperator lin_fn (eval_shape y)) (sum_squares residual) aux.

Definition step_line_sol (self : AbstractGaussNewton Scalar Y Descent LineSearch)
    (fn : Fn) (y : Y) (args : Args) (state : State) : Solution Y Aux Scalar RESULTS :=
  line_search (_line_search_fn fn) (gn_line_search self) y args
    (step_options self fn y args state) true false.

(** [AbstractGaussNewton.step]; the local [f_val] is [f_val_y] here, the
    objective at [y], apart from the field of that name. *)
Definition step (self : AbstractGaussNewton Scalar Y Descent LineSearch)
    (fn : Fn) (y : Y) (args : Args) (options : Options) (state : State) (tags : Tags)
  : Y * State * Aux :=
  let '(residual, lin_fn, aux) := jax_linearize jvp (λ _y, fn _y args) y in
  let in_structure := eval_shape y in
  let new_operator := FunctionLinearOperator lin_fn in_structure in
  let f_val_y := sum_squares residual in
  let line_search_options :=
    line_search_options self state residual new_operator f_val_y aux in
  let line_sol :=
    line_search (_line_search_fn fn) (gn_line_search self) y args
      line_search_options true false in
  let new_y := sol_value line_sol in
  let result :=
    RESULTS_where
      (bool_decide (sol_result line_sol = nonlinear_max_steps_reached))
      successful
      (sol_result line_sol) in
  let new_state :=
    {| step_size := next_init (sol_state line_sol);
       diff := tree_sub new_y y;
       f_val := f_val_y;
       f_prev := f_val state;
       result := result |} in
  (new_y, new_state, aux).

(** [AbstractGaussNewton.terminate] *)
Definition terminate (self : AbstractGaussNewton Scalar Y Descent LineSearch)
    (fn : Fn) (y : Y) (args : Args) (options : Options) (state : State) (tags : Tags)
  : bool * RESULTS :=
  cauchy_termination (gn_rtol self) (gn_atol self) (gn_norm self) y
    (diff state) (f_val state) (f_prev state) (result state).

(** [AbstractGaussNewton.buffers] *)
Definition buffers (state : State) : unit := tt.

(** [NewtonDescent(norm=None, linear_solver=lx.AutoLinearSolver(well_posed=None))]:
    an argument left out is [None] here; for [norm] that is also its default. *)
Definition NewtonDescent_init (norm : option (Y → Scalar))
    (linear_solver : option AbstractLinearSolver)
  : NewtonDescent Scalar n AbstractLinearSolver :=
  {| nd_norm := norm;
     nd_linear_solver := default (AutoLinearSolver None) linear_solver |}.

(** [GaussNewton.__init__]; the arguments [norm] and [linear_solver] have
    defaults. *)
Definition GaussNewton_init (rtol atol : Scalar) (norm : option (Y → Scalar))
    (linear_solver : option AbstractLinearSolver)
  : AbstractGaussNewton Scalar Y (NewtonDescent Scalar n AbstractLinearSolver)
      (LearningRate Scalar) :=
  let norm := default max_norm norm in
  let linear_solver := default (AutoLinearSolver None) linear_solver in
  {| gn_rtol := rtol;
     gn_atol := atol;
     gn_norm := norm;
     gn_descent := NewtonDescent_init None (Some linear_solver);
     gn_line_search := {| learning_rate := s_one |} |}.
End GaussNewton.

Arguments init {Scalar _ _ n m lx_RESULTS RESULTS _ Args Aux AuxStruct Tags Descent LineSearch}
  self fn y args options f_struct aux_struct tags.

(** ** Present and absent options *)

(** An option is present when the dictionary has the key and the value is
    not [None]: [NewtonDescent.__call__] reads a missing [operator] or
    [operator_inv] as [None]. *)
Definition is_present {Scalar n m Aux Descent}
    (options : gmap string (PyValue Scalar n m Aux Descent)) (key : string) : bool :=
  is_not_None (getitem_or_None options key).

(** ** A concrete status enumeration *)

(** Modelled from the spec: the statuses of [_solution.py] and of lineax,
    which are not among the sources: success, or one of a fixed set of
    failures (nonlinear step budget exhausted, a linear solve failure of one
    of several kinds, line-search failure); promoting the success of a linear
    solve gives success, promoting a failure gives that failure. *)
Inductive LinearFailure : Type :=
| max_steps_reached
| singular
| breakdown.

Inductive lx_Status : Type :=
| lx_solved
| lx_failed (kind : LinearFailure).

Inductive Status : Type :=
| st_successful
| st_nonlinear_max_steps_reached
| st_linear_failure (kind : LinearFailure)
| st_line_search_failure.

#[global] Instance LinearFailure_eq_dec : EqDecision LinearFailure.
Proof. solve_decision. Defined.

#[global] Instance Status_eq_dec : EqDecision Status.
Proof. solve_decision. Defined.

#[global] Instance lx_Status_eq_dec : EqDecision lx_Status.
Proof. solve_decision. Defined.

#[global] Instance Status_enum : ResultsEnum Status lx_Status := {|
  successful := st_successful;
  nonlinear_max_steps_reached := st_nonlinear_max_steps_reached;
  promote := λ r,
    match r with
    | lx_solved => st_successful
    | lx_failed kind => st_linear_failure kind
    end;
  lx_successful := lx_solved;
|}.

(** ** A linear solver for diagonal operators

    An instance of the lineax interface on which the definitions run: the
    solver divides each entry of the vector by the diagonal entry of the
    operator, and reports [singular] when a diagonal entry is zero. *)
Section Diagonal.
Context {Scalar : Type} `{!Arith Scalar} (s_zero : Scalar) (is_zero : Scalar → bool).
Context {n : nat}.

Definition unit_vector (i : fin n) : vec Scalar n :=
  fun_to_vec (λ j, if decide (i = j) then s_one else s_zero).

Definition diagonal (op : AbstractLinearOperator (vec Scalar n) (vec Scalar n))
  : vec Scalar n :=
  fun_to_vec (λ i, mv op (unit_vector i) !!! i).

Definition diagonal_solve (op : AbstractLinearOperator (vec Scalar n) (vec Scalar n))
    (vector : vec Scalar n) (solver : unit) : lx_Solution (vec Scalar n) lx_Status :=
  let d := diagonal op in
  {| lx_value := vzip_with s_div vector d;
     lx_result :=
       if existsb is_zero (vec_to_list d) then lx_failed singular else lx_solved |}.

(** [lx.AutoLinearSolver(well_posed=...)], where this is the one solver. *)
Definition AutoDiagonal (well_posed : option bool) : unit := tt.
End Diagonal.

(** ** IEEE binary64 floats *)

Module Binary64.

#[global] Instance float_arith : Arith float := {|
  s_neg := PrimFloat.opp;
  s_sub := PrimFloat.sub;
  s_mul := PrimFloat.mul;
  s_div := PrimFloat.div;
  s_one := 1%float;
|}.

#[global] Instance float_infinity : Infinity float := PrimFloat.infinity.

Definition linear_solve {k} :=
  diagonal_solve (n := k) 0%float (λ x, PrimFloat.eqb x 0%float).

(** Modelled from the spec: [sum_squares] of [_misc.py], the sum of the
    squares of the leaves. *)
Definition sum_squares {k} (v : vec float k) : float :=
  foldr (λ x acc, PrimFloat.add (PrimFloat.mul x x) acc) 0%float (vec_to_list v).

(** The maximum of two floats, NaN when one of them is, as [jnp.max] has
    it. *)
Definition float_max (a b : float) : float :=
  if PrimFloat.is_nan a then a
  else if PrimFloat.is_nan b then b
  else if PrimFloat.ltb a b then b else a.

(** Modelled from the spec: [max_norm] of [_misc.py], the
    maximum-absolute-value norm. *)
Definition max_norm {k} (v : vec float k) : float :=
  foldr (λ x acc, float_max (PrimFloat.abs x) acc) 0%float (vec_to_list v).

(** The tangent map of an affine function, by a difference of step [t]. *)
Definition jvp_affine {k Aux} (f : vec float k → vec float k * Aux)
    (y t : vec float k) : vec float k :=
  vzip_with PrimFloat.sub (fst (f (vzip_with PrimFloat.add y t))) (fst (f y)).

(** Modelled from the spec: the line search of a fixed step size, with
    [NewtonDescent] for descent: the step of the descent at the learning rate
    is accepted at full length, the objective is evaluated at the accepted
    point, and the status of the descent is reported.  Where the descent
    raises (in the code the error leaves the line search), or the options
    hold no descent, this function stays at the point. *)
Definition line_search {k Args Aux}
    (fn : vec float k → Args → float * Aux) (solver : LearningRate float)
    (y : vec float k) (args : Args)
    (options : gmap string (PyValue float k k Aux (NewtonDescent float k unit)))
    (has_aux throw : bool) : Solution (vec float k) Aux float Status :=
  let stay :=
    {| sol_value := y; sol_result := st_line_search_failure;
       sol_aux := snd (fn y args);
       sol_state := {| next_init := learning_rate solver |} |} in
  match options !! "descent" with
  | Some (VDescent descent) =>
      match NewtonDescent_call linear_solve descent (learning_rate solver) args options with
      | inr (step, result) =>
          let new_y := vzip_with PrimFloat.add y step in
          {| sol_value := new_y; sol_result := result;
             sol_aux := snd (fn new_y args);
             sol_state := {| next_init := learning_rate solver |} |}
      | inl _ => stay
      end
  | _ => stay
  end.

(** A line search with no step budget: it stays at [y] and reports that the
    budget is exhausted. *)
Definition exhausted_line_search {k Args Aux}
    (fn : vec float k → Args → float * Aux) (solver : LearningRate float)
    (y : vec float k) (args : Args)
    (options : gmap string (PyValue float k k Aux (NewtonDescent float k unit)))
    (has_aux throw : bool) : Solution (vec float k) Aux float Status :=
  {| sol_value := y; sol_result := st_nonlinear_max_steps_reached;
     sol_aux := snd (fn y args);
     sol_state := {| next_init := learning_rate solver |} |}.

(** The residual [y - target], with the point itself as auxiliary output. *)
Definition shift_fn (target : float) (y : vec float 1) (args : unit)
  : vec float 1 * vec float 1 :=
  (vmap (λ x, PrimFloat.sub x target) y, y).

(** [GaussNewton(rtol=1e-6, atol=1e-6)] *)
Definition solver : AbstractGaussNewton float (vec float 1)
    (NewtonDescent float 1 unit) (LearningRate float) :=
  GaussNewton_init AutoDiagonal max_norm
    0x1.0c6f7a0b5ed8dp-20%float 0x1.0c6f7a0b5ed8dp-20%float None None.

Definition y0 : vec float 1 := [# 0%float].

Definition state0 : _GaussNewtonState float (vec float 1) Status :=
  init (AuxStruct := unit) (Tags := unit) solver (shift_fn 3) y0 tt ∅ {| shape := 1 |} tt tt.

(** One step of the solver on [y - 3] from [0]. *)
Definition step0 :=
  step (Tags := unit) sum_squares jvp_affine line_search solver (shift_fn 3) y0 tt ∅ state0 tt.

(** The [line_sol] of that step. *)
Definition line_sol0 :=
  step_line_sol sum_squares jvp_affine line_search solver (shift_fn 3) y0 tt state0.

(** The same step under the line search with no step budget. *)
Definition step_exhausted :=
  step (Tags := unit) sum_squares jvp_affine exhausted_line_search solver (shift_fn 3)
    y0 tt ∅ state0 tt.

(** The operator of [t ↦ c * t]. *)
Definition scaling (k : nat) (c : float) : AbstractLinearOperator (vec float k) (vec float k) :=
  FunctionLinearOperator (tree_scale c) {| shape := k |}.

(** Options with a vector and a precomputed inverse operator. *)
Definition options_inv
  : gmap string (PyValue float 2 2 unit (NewtonDescent float 2 unit)) :=
  <["vector" := VTree [# 6%float; 8%float]]> (
  <["operator_inv" := VOperatorInv (scaling 2 0.5%float)]> ∅).

(** Options with a vector and no operator: [operator_inv] is [None] and
    [operator] is missing. *)
Definition options_no_operator
  : gmap string (PyValue float 2 2 unit (NewtonDescent float 2 unit)) :=
  <["vector" := VTree [# 6%float; 8%float]]> (
  <["operator_inv" := VNone]> ∅).

(** Options with an operator and no vector. *)
Definition options_no_vector
  : gmap string (PyValue float 2 2 unit (NewtonDescent float 2 unit)) :=
  <["operator" := VOperator (scaling 2 2%float)]> ∅.

(** Options with a vector and the operator of [t ↦ c * t], as [step]
    passes them: [operator_inv] is [None]. *)
Definition options_operator (c : float)
  : gmap string (PyValue float 2 2 unit (NewtonDescent float 2 unit)) :=
  <["vector" := VTree [# 6%float; 8%float]]> (
  <["operator" := VOperator (scaling 2 c)]> (
  <["operator_inv" := VNone]> ∅)).

(** [NewtonDescent()] *)
Definition newton_descent : NewtonDescent float 2 unit :=
  NewtonDescent_init AutoDiagonal None None.

(** [NewtonDescent(norm=max_norm)] *)
Definition newton_descent_max : NewtonDescent float 2 unit :=
  NewtonDescent_init AutoDiagonal (Some max_norm) None.


(** Options with a vector of zeros and a precomputed inverse operator. *)
Definition options_zero
  : gmap string (PyValue float 2 2 unit (NewtonDescent float 2 unit)) :=
  <["vector" := VTree [# 0%float; 0%float]]> (
  <["operator_inv" := VOperatorInv (scaling 2 0.5%float)]> ∅).

End Binary64.

(** ** Exact arithmetic: the real numbers *)

Module Exact.

#[global] Instance R_arith : Arith R := {|
  s_neg := Ropp;
  s_sub := Rminus;
  s_mul := Rmult;
  s_div := Rdiv;
  s_one := 1%R;
|}.

#[global] Instance R_eq_dec : EqDecision R := Req_dec_T.

Definition linear_solve {k} :=
  diagonal_solve (n := k) 0%R (λ x, bool_decide (x = 0%R)).


(** Modelled from the spec: [max_norm] of [_misc.py], the
    maximum-absolute-value norm. *)
Definition max_norm {k} (v : vec R k) : R :=
  foldr (λ x acc, Rmax (Rabs x) acc) 0%R (vec_to_list v).

(** The operator of [t ↦ c * t]. *)
Definition scaling (k : nat) (c : R) : AbstractLinearOperator (vec R k) (vec R k) :=
  FunctionLinearOperator (tree_scale c) {| shape := k |}.

(** Options with a vector and a precomputed inverse operator. *)
Definition options_inv
  : gmap string (PyValue R 2 2 unit (NewtonDescent R 2 unit)) :=
  <["vector" := VTree [# 6%R; 8%R]]> (
  <["operator_inv" := VOperatorInv (scaling 2 (/ 2)%R)]> ∅).

(** [NewtonDescent(norm=max_norm)] *)
Definition newton_descent : NewtonDescent R 2 unit :=
  NewtonDescent_init AutoDiagonal (Some max_norm) None.

End Exact.

(** * Properties *)

(** ** The error monad and the dictionary *)

Lemma py_bind_ret {A B} (f : A → py B) (x : A) : mret x ≫= f = f x.
Proof. reflexivity. Qed.

Lemma py_bind_raise {A B} (f : A → py B) (e : exn) : raise e ≫= f = raise e.
Proof. reflexivity. Qed.

Section Dictionary.
Context {Scalar : Type} {n m : nat} {Aux Descent : Type}.
Implicit Types (options : gmap string (PyValue Scalar n m Aux Descent)) (key : string).

Lemma getitem_Some options key v :
  options !! key = Some v → getitem options key = mret v.
Proof. unfold getitem. by intros ->. Qed.

Lemma getitem_None options key :
  options !! key = None → getitem options key = raise (KeyError key).
Proof. unfold getitem. by intros ->. Qed.

Lemma getitem_or_None_Some options key v :
  options !! key = Some v → getitem_or_None options key = v.
Proof. unfold getitem_or_None. by intros ->. Qed.

(** An option is absent exactly when its key is missing or bound to [None]. *)
Lemma is_present_false options key :
  is_present options key = false ↔
  options !! key = None ∨ options !! key = Some VNone.
Proof.
  unfold is_present, getitem_or_None.
  destruct (options !! key) as [v|] eqn:E.
  - split.
    + destruct v; simpl; intros H; try discriminate H. by right.
    + intros [H|H]; [discriminate H|]. by injection H as ->.
  - split; [by left | done].
Qed.

Lemma is_present_true options key :
  is_present options key = true ↔ ∃ v, options !! key = Some v ∧ v ≠ VNone.
Proof.
  unfold is_present, getitem_or_None.
  destruct (options !! key) as [v|] eqn:E.
  - split.
    + intros H. exists v. split; [done|]. intros ->. discriminate H.
    + intros (w & [= <-] & Hw). destruct v; done.
  - split; [done | by intros (w & ? & _)].
Qed.
End Dictionary.

(** ** [NewtonDescent.__call__] *)

Section DescentProperties.
Context {Scalar : Type} `{!Arith Scalar} {n m : nat}.
Context {AbstractLinearSolver lx_RESULTS RESULTS : Type}.
Context `{!ResultsEnum RESULTS lx_RESULTS}.
Context {Args Aux Descent : Type}.
Implicit Types (options : gmap string (PyValue Scalar n m Aux Descent)).
Implicit Types (self : NewtonDescent Scalar n AbstractLinearSolver).
Implicit Types (linear_solve :
  AbstractLinearOperator (vec Scalar n) (vec Scalar m) → vec Scalar m →
  AbstractLinearSolver → lx_Solution (vec Scalar n) lx_RESULTS).

(** The step that [__call__] makes of a Newton direction. *)
Lemma NewtonDescent_call_direction linear_solve self step_size (args : Args)
    options vector newton result :
  options !! "vector" = Some vector →
  newton_direction linear_solve self vector
    (getitem_or_None options "operator_inv") (getitem_or_None options "operator")
    = mret (newton, result) →
  NewtonDescent_call linear_solve self step_size args options =
    mret (tree_scale (s_neg step_size)
            (match nd_norm self with
             | None => newton
             | Some norm => tree_div newton (norm newton)
             end), result).
Proof.
  intros Hv Hd. unfold NewtonDescent_call.
  rewrite (getitem_Some _ _ _ Hv), py_bind_ret, Hd. reflexivity.
Qed.

(** The same, leaf by leaf: every leaf of the step is the product of
    [-step_size] and the leaf of the direction, divided by the norm of the
    direction when a norm is configured. *)
Lemma NewtonDescent_call_leaves linear_solve self step_size (args : Args)
    options vector newton result :
  options !! "vector" = Some vector →
  newton_direction linear_solve self vector
    (getitem_or_None options "operator_inv") (getitem_or_None options "operator")
    = mret (newton, result) →
  ∃ step,
    NewtonDescent_call linear_solve self step_size args options = mret (step, result)
    ∧ ∀ i, step !!! i =
        s_mul (s_neg step_size)
          (match nd_norm self with
           | None => newton !!! i
           | Some norm => s_div (newton !!! i) (norm newton)
           end).
Proof.
  intros Hv Hd. eexists. split.
  - exact (NewtonDescent_call_direction _ _ step_size args _ _ _ _ Hv Hd).
  - intros i. unfold tree_scale, tree_div.
    destruct (nd_norm self) as [norm|]; by rewrite !vlookup_map.
Qed.

(** The direction of the branch of [operator]: the value of the solve when
    the solve succeeds, and the error that [lx.linear_solve] throws when it
    does not. *)
Lemma newton_direction_operator linear_solve self (v : vec Scalar m)
    (op : AbstractLinearOperator (vec Scalar n) (vec Scalar m))
    (operator_inv : PyValue Scalar n m Aux Descent) :
  is_not_None operator_inv = false →
  newton_direction linear_solve self (VTree v) operator_inv (VOperator op) =
    let out := linear_solve op v (nd_linear_solver self) in
    if decide (lx_result out = lx_successful)
    then mret (lx_value out, promote (lx_result out))
    else raise RuntimeError.
Proof.
  intros Hinv. unfold newton_direction. rewrite Hinv. cbn.
  case_bool_decide; by case_decide.
Qed.

(** C9. Without the key ["vector"] in [options], [NewtonDescent.__call__]
    raises: the lookup [options["vector"]] of its first line fails with a
    [KeyError], whatever the step size, the arguments and the other options;
    it returns no step and no status. *)
Theorem NewtonDescent_call_missing_vector linear_solve self step_size (args : Args)
    options :
  options !! "vector" = None →
  NewtonDescent_call linear_solve self step_size args options = raise (KeyError "vector").
Proof.
  intros Hv. unfold NewtonDescent_call.
  by rewrite (getitem_None _ _ Hv).
Qed.

(** C4. With a vector in [options] and neither [operator] nor [operator_inv]
    available (the key missing, or bound to [None]), [NewtonDescent.__call__]
    raises the [ValueError] of its last branch, for every step size,
    arguments and vector: an exception, not a status. *)
Theorem NewtonDescent_call_no_operator linear_solve self step_size (args : Args)
    options vector :
  options !! "vector" = Some vector →
  is_present options "operator_inv" = false →
  is_present options "operator" = false →
  NewtonDescent_call linear_solve self step_size args options =
    raise (ValueError no_operator_msg).
Proof.
  intros Hv Hinv Hop. unfold NewtonDescent_call.
  rewrite (getitem_Some _ _ _ Hv), py_bind_ret.
  unfold is_present in Hinv, Hop. unfold newton_direction.
  rewrite Hinv, Hop. reflexivity.
Qed.

(** C8. With a precomputed inverse operator in [options], the Newton
    direction is [operator_inv.mv(vector)] and the status is [successful];
    no linear solve takes part (the result is the same for every
    [linear_solve]); and with no norm configured the step is
    [-step_size * newton]: every leaf of the step is the product of
    [-step_size] and the leaf of [newton] (divided by the norm of [newton]
    when a norm is configured). *)
Theorem NewtonDescent_call_operator_inv linear_solve self step_size (args : Args)
    options v inv :
  options !! "vector" = Some (VTree v) →
  options !! "operator_inv" = Some (VOperatorInv inv) →
  let newton := mv inv v in
  NewtonDescent_call linear_solve self step_size args options =
    mret (tree_scale (s_neg step_size)
            (match nd_norm self with
             | None => newton
             | Some norm => tree_div newton (norm newton)
             end), successful)
  ∧ (∀ linear_solve',
       NewtonDescent_call linear_solve' self step_size args options =
       NewtonDescent_call linear_solve self step_size args options)
  ∧ (nd_norm self = None →
       NewtonDescent_call linear_solve self step_size args options =
         mret (tree_scale (s_neg step_size) newton, successful))
  ∧ (∃ step,
       NewtonDescent_call linear_solve self step_size args options
         = mret (step, successful)
       ∧ (∀ i, step !!! i =
            s_mul (s_neg step_size)
              (match nd_norm self with
               | None => newton !!! i
               | Some norm => s_div (newton !!! i) (norm newton)
               end))
       ∧ (nd_norm self = None →
            ∀ i, step !!! i = s_mul (s_neg step_size) (newton !!! i))).
Proof.
  intros Hv Hinv newton.
  assert (Hdir : ∀ ls, newton_direction ls self (VTree v)
            (getitem_or_None options "operator_inv") (getitem_or_None options "operator")
            = mret (newton, successful)).
  { intros ls. rewrite (getitem_or_None_Some _ _ _ Hinv). reflexivity. }
  assert (Hcall := λ ls, NewtonDescent_call_direction ls self step_size args
                           options _ _ _ Hv (Hdir ls)).
  split; [apply Hcall|]. split; [|split].
  - intros ls'. by rewrite !Hcall.
  - intros Hnone. rewrite Hcall, Hnone. reflexivity.
  - destruct (NewtonDescent_call_leaves linear_solve self step_size args options
                _ _ _ Hv (Hdir linear_solve)) as (step & Hstep & Hleaves).
    exists step. split; [exact Hstep|]. split; [exact Hleaves|].
    intros Hnone i. rewrite Hleaves, Hnone. reflexivity.
Qed.
End DescentProperties.

(** ** [AbstractGaussNewton] and [GaussNewton] *)

Lemma tree_full_like_replicate {Scalar k} (y : vec Scalar k) (c : Scalar) :
  tree_full_like y c = vreplicate k c.
Proof.
  apply vec_eq. intros i. unfold tree_full_like.
  by rewrite vlookup_map, vlookup_replicate.
Qed.

Lemma tree_sub_lookup {Scalar} `{!Arith Scalar} {k} (u v : vec Scalar k) (i : fin k) :
  tree_sub u v !!! i = s_sub (u !!! i) (v !!! i).
Proof. apply vlookup_zip_with. Qed.

Section GaussNewtonProperties.
Context {Scalar : Type} `{!Arith Scalar} `{!Infinity Scalar} {n m : nat}.
Context {AbstractLinearSolver lx_RESULTS RESULTS : Type}.
Context `{!ResultsEnum RESULTS lx_RESULTS}.
Context {Args Aux AuxStruct Tags Descent LineSearch : Type}.
Context (sum_squares : vec Scalar m → Scalar).
Context (jvp : (vec Scalar n → vec Scalar m * Aux) → vec Scalar n → vec Scalar n → vec Scalar m).
Context (line_search :
  (vec Scalar n → Args → Scalar * Aux) → LineSearch → vec Scalar n → Args →
  gmap string (PyValue Scalar n m Aux Descent) → bool → bool →
  Solution (vec Scalar n) Aux Scalar RESULTS).
Implicit Types (self : AbstractGaussNewton Scalar (vec Scalar n) Descent LineSearch).
Implicit Types (fn : vec Scalar n → Args → vec Scalar m * Aux).
Implicit Types (y : vec Scalar n) (args : Args) (tags : Tags).
Implicit Types (options : gmap string (PyValue Scalar n m Aux Descent)).
Implicit Types (state : _GaussNewtonState Scalar (vec Scalar n) RESULTS).

(** [step], with its locals by their names. *)
Lemma step_eq self fn y args options state tags :
  step sum_squares jvp line_search self fn y args options state tags =
    let line_sol := step_line_sol sum_squares jvp line_search self fn y args state in
    (sol_value line_sol,
     {| step_size := next_init (sol_state line_sol);
        diff := tree_sub (sol_value line_sol) y;
        f_val := sum_squares (fst (fn y args));
        f_prev := f_val state;
        result := RESULTS_where
                    (bool_decide (sol_result line_sol = nonlinear_max_steps_reached))
                    successful (sol_result line_sol) |},
     snd (fn y args)).
Proof. reflexivity. Qed.

Lemma RESULTS_where_decide (s : RESULTS) :
  RESULTS_where (bool_decide (s = nonlinear_max_steps_reached)) successful s =
    if decide (s = nonlinear_max_steps_reached) then successful else s.
Proof. unfold RESULTS_where. by case_bool_decide; case_decide. Qed.

(** C1, as the code has it. The auxiliary output that [step] returns is the
    one of the linearization of [fn] at the incoming [y], that is the
    auxiliary output of [fn] at [y]; the auxiliary output of the line search
    is not read, so the result is the same whatever the line search reports
    as its own. *)
Theorem step_aux_of_linearization self fn y args options state tags :
  snd (step sum_squares jvp line_search self fn y args options state tags)
    = snd (jax_linearize jvp (λ _y, fn _y args) y)
  ∧ snd (step sum_squares jvp line_search self fn y args options state tags)
    = snd (fn y args)
  ∧ ∀ aux',
      let line_search' := λ f ls y0 a o has_aux throw,
        let sol := line_search f ls y0 a o has_aux throw in
        {| sol_value := sol_value sol; sol_result := sol_result sol;
           sol_aux := aux'; sol_state := sol_state sol |} in
      step sum_squares jvp line_search' self fn y args options state tags
      = step sum_squares jvp line_search self fn y args options state tags.
Proof. repeat split. Qed.

(** C2. The status that [step] stores in the new state is [successful] when
    the status [s] of the line search is [nonlinear_max_steps_reached], and
    [s] itself for every other status. *)
Theorem step_result_downgrade self fn y args options state tags (s : RESULTS) :
  sol_result (step_line_sol sum_squares jvp line_search self fn y args state) = s →
  result (snd (fst (step sum_squares jvp line_search self fn y args options state tags)))
    = if decide (s = nonlinear_max_steps_reached) then successful else s.
Proof.
  intros <-. rewrite step_eq. cbn. apply RESULTS_where_decide.
Qed.

(** C5. [init] returns the state with step size [1], [diff] of the shape of
    [y] with [+infinity] at every leaf, [f_val = f_prev = +infinity] and the
    status [successful]; [fn] is not evaluated: the state is the same for
    every [fn], and it does not depend on [options] or [aux_struct] (nor on
    the solver, [args], [f_struct] or [tags]). *)
Theorem init_state self fn y args options (f_struct : ShapeDtypeStruct)
    (aux_struct : AuxStruct) tags :
  let state := init self fn y args options f_struct aux_struct tags in
  state = {| step_size := s_one; diff := vreplicate n jnp_inf;
             f_val := jnp_inf; f_prev := jnp_inf; result := successful |}
  ∧ (∀ i, diff state !!! i = jnp_inf)
  ∧ (∀ self' fn' args' options' f_struct' (aux_struct' : AuxStruct) tags',
       init self' fn' y args' options' f_struct' aux_struct' tags' = state).
Proof.
  cbn. unfold init. rewrite tree_full_like_replicate.
  split; [reflexivity|]. split; [|reflexivity].
  intros i. cbn. apply vlookup_replicate.
Qed.

(** C7. The new state of [step]: the step size is the next initial step size
    that the line search recommends, [diff] is [new_y - y] leaf by leaf,
    [f_val] is the sum of squares of the residual of [fn] at [y], [f_prev]
    is the [f_val] of the incoming state, and [result] is the status of the
    line search after the downgrade. *)
Theorem step_new_state self fn y args options state tags :
  let line_sol := step_line_sol sum_squares jvp line_search self fn y args state in
  let '(new_y, new_state, _) :=
    step sum_squares jvp line_search self fn y args options state tags in
  new_y = sol_value line_sol
  ∧ step_size new_state = next_init (sol_state line_sol)
  ∧ diff new_state = tree_sub new_y y
  ∧ (∀ i, diff new_state !!! i = s_sub (new_y !!! i) (y !!! i))
  ∧ f_val new_state = sum_squares (fst (fn y args))
  ∧ f_prev new_state = f_val state
  ∧ result new_state =
      if decide (sol_result line_sol = nonlinear_max_steps_reached)
      then successful else sol_result line_sol.
Proof.
  rewrite step_eq. cbn.
  repeat split; auto using RESULTS_where_decide.
  intros i. apply tree_sub_lookup.
Qed.
End GaussNewtonProperties.

Section OptionsProperties.
Context {Scalar : Type} `{!Arith Scalar} {n m : nat}.
Context {AbstractLinearSolver lx_RESULTS RESULTS : Type}.
Context `{!ResultsEnum RESULTS lx_RESULTS}.
Context {Args Aux Tags Descent LineSearch : Type}.
Context (sum_squares : vec Scalar m → Scalar).
Context (jvp : (vec Scalar n → vec Scalar m * Aux) → vec Scalar n → vec Scalar n → vec Scalar m).
Implicit Types (self : AbstractGaussNewton Scalar (vec Scalar n) Descent LineSearch).
Implicit Types (fn : vec Scalar n → Args → vec Scalar m * Aux).
Implicit Types (state : _GaussNewtonState Scalar (vec Scalar n) RESULTS).

Lemma line_search_options_lookup self state (residual : vec Scalar m)
    (new_operator : AbstractLinearOperator (vec Scalar n) (vec Scalar m))
    (f0 : Scalar) (aux : Aux) :
  let options := line_search_options self state residual new_operator f0 aux in
  options !! "init_step_size" = Some (VScalar (step_size state))
  ∧ options !! "vector" = Some (VTree residual)
  ∧ options !! "operator" = Some (VOperator new_operator)
  ∧ options !! "operator_inv" = Some VNone
  ∧ options !! "f0" = Some (VScalar f0)
  ∧ options !! "aux" = Some (VAux aux)
  ∧ options !! "gauss_newton" = Some (VBool true)
  ∧ options !! "descent" = Some (VDescent (gn_descent self)).
Proof.
  cbn. unfold line_search_options.
  repeat split; by simplify_map_eq.
Qed.

(** C6. Whatever the line search, [step] calls it on one dictionary of
    options (the point that [step] returns is the value of the line search
    on that dictionary), and this dictionary holds [operator], bound to the
    operator just built from the linearization, and [operator_inv] bound to
    [None]: of the two, exactly [operator] is present.  On these options
    [NewtonDescent.__call__], with any linear solver and at any step size,
    takes [operator_inv] for absent and solves with [operator]: it returns
    the step made of the solution when the solve succeeds, leaf by leaf the
    product of [-step_size] and the (normalised) solution, and raises what
    [lx.linear_solve] throws when it fails; it raises neither the
    [KeyError] nor the [ValueError] of a missing option. *)
Theorem step_options_operator self fn (y : vec Scalar n) (args : Args) state :
  let options := step_options sum_squares jvp self fn y args state in
  let new_operator := FunctionLinearOperator (jvp (λ _y, fn _y args) y) (eval_shape y) in
  (∀ (line_search :
        (vec Scalar n → Args → Scalar * Aux) → LineSearch → vec Scalar n → Args →
        gmap string (PyValue Scalar n m Aux Descent) → bool → bool →
        Solution (vec Scalar n) Aux Scalar RESULTS)
      (caller_options : gmap string (PyValue Scalar n m Aux Descent)) (tags : Tags),
     fst (fst (step sum_squares jvp line_search self fn y args caller_options state tags))
     = sol_value (line_search (_line_search_fn sum_squares fn) (gn_line_search self)
                    y args options true false))
  ∧ options !! "operator" = Some (VOperator new_operator)
  ∧ options !! "operator_inv" = Some VNone
  ∧ is_present options "operator" = true
  ∧ is_present options "operator_inv" = false
  ∧ (∀ (linear_solve : AbstractLinearOperator (vec Scalar n) (vec Scalar m) →
          vec Scalar m → AbstractLinearSolver → lx_Solution (vec Scalar n) lx_RESULTS)
       (descent : NewtonDescent Scalar n AbstractLinearSolver) step_size (args' : Args),
       let out := linear_solve new_operator (fst (fn y args)) (nd_linear_solver descent) in
       if decide (lx_result out = lx_successful)
       then
         ∃ step,
           NewtonDescent_call linear_solve descent step_size args' options
             = mret (step, promote (lx_result out))
           ∧ ∀ i, step !!! i =
               s_mul (s_neg step_size)
                 (match nd_norm descent with
                  | None => lx_value out !!! i
                  | Some norm => s_div (lx_value out !!! i) (norm (lx_value out))
                  end)
       else
         NewtonDescent_call linear_solve descent step_size args' options
           = raise RuntimeError).
Proof.
  intros options new_operator.
  destruct (line_search_options_lookup self state (fst (fn y args)) new_operator
              (sum_squares (fst (fn y args))) (snd (fn y args)))
    as (_ & Hvec & Hop & Hinv & _).
  change (line_search_options _ _ _ _ _ _) with options in Hvec, Hop, Hinv.
  split; [reflexivity|].
  split; [exact Hop|]. split; [exact Hinv|].
  split; [unfold is_present; by rewrite (getitem_or_None_Some _ _ _ Hop)|].
  split; [unfold is_present; by rewrite (getitem_or_None_Some _ _ _ Hinv)|].
  intros linear_solve descent step_size args' out.
  assert (Hdir : newton_direction linear_solve descent (VTree (fst (fn y args)))
            (getitem_or_None options "operator_inv") (getitem_or_None options "operator")
          = if decide (lx_result out = lx_successful)
            then mret (lx_value out, promote (lx_result out))
            else raise RuntimeError).
  { rewrite (getitem_or_None_Some _ _ _ Hinv), (getitem_or_None_Some _ _ _ Hop).
    by apply newton_direction_operator. }
  destruct (decide (lx_result out = lx_successful)) as [Hok|Hfail].
  - exact (NewtonDescent_call_leaves linear_solve descent step_size args' options
             _ _ _ Hvec Hdir).
  - unfold NewtonDescent_call.
    by rewrite (getitem_Some _ _ _ Hvec), py_bind_ret, Hdir.
Qed.
End OptionsProperties.

Section Construction.
Context {Scalar : Type} `{!Arith Scalar} {n : nat} {AbstractLinearSolver : Type}.
Context (AutoLinearSolver : option bool → AbstractLinearSolver).
Context (max_norm : vec Scalar n → Scalar).

(** C10. [GaussNewton(rtol, atol)], with or without a linear solver: the
    norm is [max_norm], the descent is a [NewtonDescent] with the linear
    solver of the caller (the automatic one when none is given) and no norm,
    and the line search is [LearningRate(1.0)]; the tolerances are those of
    the caller. *)
Theorem GaussNewton_init_default (rtol atol : Scalar)
    (linear_solver : option AbstractLinearSolver) :
  let solver := GaussNewton_init AutoLinearSolver max_norm rtol atol None linear_solver in
  gn_rtol solver = rtol
  ∧ gn_atol solver = atol
  ∧ gn_norm solver = max_norm
  ∧ nd_norm (gn_descent solver) = None
  ∧ nd_linear_solver (gn_descent solver) =
      match linear_solver with
      | Some caller_solver => caller_solver
      | None => AutoLinearSolver None
      end
  ∧ gn_line_search solver = {| learning_rate := s_one |}.
Proof.
  destruct linear_solver as [caller_solver|]; cbn; auto 10.
Qed.
End Construction.

(** ** The length of the normalised step, in exact arithmetic *)

Section ExactStep.
Local Open Scope R_scope.








End ExactStep.

(** ** The definitions at concrete inputs *)

(** On binary64 floats: one step of [GaussNewton] on the residual [y - 3]
    from [y = 0] goes to [3] at full length. *)
Example step0_value :
  Binary64.step0 =
    ([# 3%float],
     {| step_size := 1%float; diff := [# 3%float]; f_val := 9%float;
        f_prev := infinity; result := st_successful |},
     [# 0%float]).
Proof. vm_compute. reflexivity. Qed.

Example line_sol0_value :
  Binary64.line_sol0 =
    {| sol_value := [# 3%float]; sol_result := st_successful;
       sol_aux := [# 3%float]; sol_state := {| next_init := 1%float |} |}.
Proof. vm_compute. reflexivity. Qed.

Example state0_value :
  Binary64.state0 =
    {| step_size := 1%float; diff := [# infinity]; f_val := infinity;
       f_prev := infinity; result := st_successful |}.
Proof. vm_compute. reflexivity. Qed.

(** [NewtonDescent] on binary64 floats: with the inverse operator, with the
    operator, with a singular operator (the solve throws), and with a norm
    (the step has the length of the step size). *)
Example NewtonDescent_call_inverse :
  NewtonDescent_call Binary64.linear_solve Binary64.newton_descent 0.5%float tt
    Binary64.options_inv = mret ([# (-1.5)%float; (-2)%float], st_successful).
Proof. vm_compute. reflexivity. Qed.

Example NewtonDescent_call_solve :
  NewtonDescent_call Binary64.linear_solve Binary64.newton_descent 0.5%float tt
    (Binary64.options_operator 2) = mret ([# (-1.5)%float; (-2)%float], st_successful).
Proof. vm_compute. reflexivity. Qed.

Example NewtonDescent_call_singular :
  NewtonDescent_call Binary64.linear_solve Binary64.newton_descent 0.5%float tt
    (Binary64.options_operator 0) = raise RuntimeError.
Proof. vm_compute. reflexivity. Qed.

Example NewtonDescent_call_normalised :
  NewtonDescent_call Binary64.linear_solve Binary64.newton_descent_max 0.5%float tt
    (Binary64.options_operator 2) = mret ([# (-0.375)%float; (-0.5)%float], st_successful)
  ∧ Binary64.max_norm [# (-0.375)%float; (-0.5)%float] = 0.5%float.
Proof. split; vm_compute; reflexivity. Qed.

(** C1, as the specification has it, fails: on the residual [y - 3], whose
    auxiliary output is the point itself, the step from [0] returns the
    auxiliary output [0] of the linearization, and the line search, which
    accepts the point [3], has the auxiliary output [3]. *)
Lemma step_aux_not_of_line_search :
  snd Binary64.step0 = [# 0%float]
  ∧ sol_aux Binary64.line_sol0 = [# 3%float]
  ∧ snd Binary64.step0 ≠ sol_aux Binary64.line_sol0.
Proof.
  split; [by vm_compute|]. split; [by vm_compute|].
  intros Heq.
  apply (f_equal (λ v : vec float 1, PrimFloat.eqb (v !!! 0%fin) 0%float)) in Heq.
  vm_compute in Heq. discriminate Heq.
Qed.

Lemma step_result_downgrade_witness :
  sol_result
    (step_line_sol Binary64.sum_squares Binary64.jvp_affine
       Binary64.exhausted_line_search Binary64.solver (Binary64.shift_fn 3)
       Binary64.y0 tt Binary64.state0) = st_nonlinear_max_steps_reached
  ∧ result (snd (fst Binary64.step_exhausted)) = st_successful.
Proof.
  split; [reflexivity|].
  exact (step_result_downgrade (Tags := unit) Binary64.sum_squares Binary64.jvp_affine
           Binary64.exhausted_line_search Binary64.solver (Binary64.shift_fn 3)
           Binary64.y0 tt ∅ Binary64.state0 tt st_nonlinear_max_steps_reached eq_refl).
Defined.

Lemma NewtonDescent_call_missing_vector_witness :
  Binary64.options_no_vector !! "vector" = None
  ∧ NewtonDescent_call Binary64.linear_solve Binary64.newton_descent 1%float tt
      Binary64.options_no_vector = raise (KeyError "vector").
Proof.
  split; [reflexivity|].
  apply NewtonDescent_call_missing_vector. reflexivity.
Defined.

Lemma NewtonDescent_call_no_operator_witness :
  is_present Binary64.options_no_operator "operator_inv" = false
  ∧ is_present Binary64.options_no_operator "operator" = false
  ∧ NewtonDescent_call Binary64.linear_solve Binary64.newton_descent 1%float tt
      Binary64.options_no_operator = raise (ValueError no_operator_msg).
Proof.
  split; [reflexivity|]. split; [reflexivity|].
  apply (NewtonDescent_call_no_operator _ _ _ _ _ (VTree [# 6%float; 8%float]));
    reflexivity.
Defined.

Lemma NewtonDescent_call_operator_inv_witness :
  Binary64.options_inv !! "vector" = Some (VTree [# 6%float; 8%float])
  ∧ Binary64.options_inv !! "operator_inv"
      = Some (VOperatorInv (Binary64.scaling 2 0.5%float))
  ∧ NewtonDescent_call Binary64.linear_solve Binary64.newton_descent 0.5%float tt
      Binary64.options_inv =
      mret (tree_scale (s_neg 0.5%float)
              (mv (Binary64.scaling 2 0.5%float) [# 6%float; 8%float]), st_successful)
  ∧ NewtonDescent_call Binary64.linear_solve Binary64.newton_descent 0.5%float tt
      Binary64.options_inv = mret ([# (-1.5)%float; (-2)%float], st_successful).
Proof.
  split; [reflexivity|]. split; [reflexivity|].
  pose proof (proj2 (proj2 (NewtonDescent_call_operator_inv Binary64.linear_solve
                Binary64.newton_descent 0.5%float tt Binary64.options_inv
                [# 6%float; 8%float] (Binary64.scaling 2 0.5%float) eq_refl eq_refl)))
    as [Hstep (step & Hcall & _ & Hleaves)].
  split; [exact (Hstep eq_refl)|].
  rewrite Hcall. do 2 f_equal.
  apply vec_eq. intros i. rewrite (Hleaves eq_refl i).
  inv_fin i; [reflexivity|]. intros i. inv_fin i; [reflexivity|].
  intros i. inv_fin i.
Defined.



(** * Further properties of the module *)

(** ** When [NewtonDescent.__call__] raises *)

Section DescentRaises.
Context {Scalar : Type} `{!Arith Scalar} {n m : nat}.
Context {AbstractLinearSolver lx_RESULTS RESULTS : Type}.
Context `{!ResultsEnum RESULTS lx_RESULTS}.
Context {Args Aux Descent : Type}.
Implicit Types (options : gmap string (PyValue Scalar n m Aux Descent)).
Implicit Types (vector operator operator_inv : PyValue Scalar n m Aux Descent).
Implicit Types (self : NewtonDescent Scalar n AbstractLinearSolver).
Implicit Types (linear_solve :
  AbstractLinearOperator (vec Scalar n) (vec Scalar m) → vec Scalar m →
  AbstractLinearSolver → lx_Solution (vec Scalar n) lx_RESULTS).

Lemma newton_direction_no_KeyError linear_solve self vector operator_inv operator key :
  newton_direction linear_solve self vector operator_inv operator ≠ raise (KeyError key).
Proof.
  unfold newton_direction, py_mv, lx_linear_solve, mbind, py_bind, raise.
  repeat case_match; simplify_eq; by intros [=].
Qed.

Lemma lineax_array_msg_other : lineax_array_msg ≠ no_operator_msg.
Proof. discriminate. Qed.

Lemma lineax_structure_msg_other : lineax_structure_msg ≠ no_operator_msg.
Proof. discriminate. Qed.

Lemma newton_direction_ValueError linear_solve self vector operator_inv operator :
  newton_direction linear_solve self vector operator_inv operator
    = raise (ValueError no_operator_msg)
  ↔ is_not_None operator_inv = false ∧ is_not_None operator = false.
Proof.
  split.
  - unfold newton_direction, py_mv, lx_linear_solve, mbind, py_bind, raise.
    pose proof lineax_array_msg_other. pose proof lineax_structure_msg_other.
    repeat case_match; simplify_eq; intros [=]; done.
  - intros [Hinv Hop]. unfold newton_direction. by rewrite Hinv, Hop.
Qed.

(** What is left of a call whose Newton direction raises. *)
Lemma py_bind_inl {A B} (f : A → py B) (c : py A) (e : exn) :
  c ≫= f = inl e → (c = inl e) ∨ (∃ x, c = inr x ∧ f x = inl e).
Proof.
  destruct c as [e'|x]; intros Hbind.
  - left. injection Hbind as ->. reflexivity.
  - right. exists x. split; [reflexivity | exact Hbind].
Qed.

Lemma NewtonDescent_call_raises linear_solve self step_size (args : Args) options e :
  NewtonDescent_call linear_solve self step_size args options = raise e →
  (options !! "vector" = None ∧ e = KeyError "vector")
  ∨ (∃ vector, options !! "vector" = Some vector
       ∧ newton_direction linear_solve self vector
           (getitem_or_None options "operator_inv")
           (getitem_or_None options "operator") = raise e).
Proof.
  unfold NewtonDescent_call, getitem.
  destruct (options !! "vector") as [vector|].
  - rewrite py_bind_ret. intros Hcall. right. exists vector. split; [done|].
    apply py_bind_inl in Hcall as [Hd|((newton & result) & _ & Hret)]; [done|].
    discriminate Hret.
  - intros [= <-]. by left.
Qed.

(** X1. The only [KeyError] of [NewtonDescent.__call__] is the one of
    ["vector"]: the call raises [KeyError key] exactly when [key] is
    ["vector"] and [options] has no such key.  A missing [operator] or
    [operator_inv] never surfaces as a [KeyError]. *)
Theorem NewtonDescent_call_KeyError_iff linear_solve self step_size (args : Args)
    options key :
  NewtonDescent_call linear_solve self step_size args options = raise (KeyError key)
  ↔ key = "vector" ∧ options !! "vector" = None.
Proof.
  split.
  - intros Hcall.
    apply NewtonDescent_call_raises in Hcall as [[Hv [= ->]]|(v & _ & Hd)]; [done|].
    by apply newton_direction_no_KeyError in Hd.
  - intros [-> Hv]. unfold NewtonDescent_call. by rewrite (getitem_None _ _ Hv).
Qed.

(** X2. [NewtonDescent.__call__] raises the [ValueError] of lines 98-101,
    the one with the message about [operator] and [operator_inv], exactly
    when [options] holds a vector and neither [operator] nor [operator_inv]
    is available.  (A [ValueError] with another message is one of the checks
    of [lx.linear_solve].) *)
Theorem NewtonDescent_call_ValueError_iff linear_solve self step_size (args : Args)
    options :
  NewtonDescent_call linear_solve self step_size args options
    = raise (ValueError no_operator_msg)
  ↔ is_Some (options !! "vector")
    ∧ is_present options "operator_inv" = false
    ∧ is_present options "operator" = false.
Proof.
  split.
  - intros Hcall.
    apply NewtonDescent_call_raises in Hcall as [[_ [=]]|(v & Hv & Hd)].
    apply newton_direction_ValueError in Hd as (Hinv & Hop).
    rewrite Hv. by eauto.
  - intros ([v Hv] & Hinv & Hop). unfold NewtonDescent_call.
    rewrite (getitem_Some _ _ _ Hv), py_bind_ret.
    assert (Hd : newton_direction linear_solve self v
                   (getitem_or_None options "operator_inv")
                   (getitem_or_None options "operator")
                 = raise (ValueError no_operator_msg))
      by by apply newton_direction_ValueError.
    by rewrite Hd.
Qed.

(** The Newton direction does not read the norm. *)
Lemma newton_direction_norm linear_solve (solver : AbstractLinearSolver)
    (norm norm' : option (vec Scalar n → Scalar)) vector operator_inv operator :
  newton_direction linear_solve {| nd_norm := norm; nd_linear_solver := solver |}
    vector operator_inv operator
  = newton_direction linear_solve {| nd_norm := norm'; nd_linear_solver := solver |}
      vector operator_inv operator.
Proof. reflexivity. Qed.

(** X3. Whether the call raises, which exception it raises, and which
    status it returns depend on the options and on the linear solver only:
    they are the same at every step size, for every [args], and with or
    without a norm. *)
Theorem NewtonDescent_call_status_independent linear_solve
    (solver : AbstractLinearSolver) (norm norm' : option (vec Scalar n → Scalar))
    (step_size step_size' : Scalar) (args args' : Args) options :
  NewtonDescent_call linear_solve {| nd_norm := norm; nd_linear_solver := solver |}
      step_size args options ≫= (λ step_result, mret (snd step_result))
  = NewtonDescent_call linear_solve {| nd_norm := norm'; nd_linear_solver := solver |}
      step_size' args' options ≫= (λ step_result, mret (snd step_result)).
Proof.
  unfold NewtonDescent_call, mbind, py_bind.
  destruct (getitem options "vector") as [e|vector]; [reflexivity|].
  rewrite (newton_direction_norm linear_solve solver norm norm').
  by destruct (newton_direction _ _ _ _ _) as [e|[newton result]].
Qed.

(** X4. With a vector, an operator and no inverse operator in [options],
    the call returns exactly when the linear solve succeeds: the step is
    then made of the value of the solve, leaf by leaf the product of
    [-step_size] and the (normalised) solution, and the status is the
    promoted [successful] of lineax.  When the solve fails the call raises,
    because [lx.linear_solve] is called with its default [throw=True]: no
    status of a failed linear solve is returned. *)
Theorem NewtonDescent_call_linear_solve linear_solve self step_size (args : Args)
    options v op :
  options !! "vector" = Some (VTree v) →
  is_present options "operator_inv" = false →
  options !! "operator" = Some (VOperator op) →
  let out := linear_solve op v (nd_linear_solver self) in
  (lx_result out = lx_successful →
     ∃ step,
       NewtonDescent_call linear_solve self step_size args options
         = mret (step, promote lx_successful)
       ∧ ∀ i, step !!! i =
           s_mul (s_neg step_size)
             (match nd_norm self with
              | None => lx_value out !!! i
              | Some norm => s_div (lx_value out !!! i) (norm (lx_value out))
              end))
  ∧ (lx_result out ≠ lx_successful →
     NewtonDescent_call linear_solve self step_size args options = raise RuntimeError)
  ∧ (∀ step result,
       NewtonDescent_call linear_solve self step_size args options = mret (step, result) →
       result = promote lx_successful).
Proof.
  intros Hv Hinv Hop out.
  assert (Hdir : newton_direction linear_solve self (VTree v)
            (getitem_or_None options "operator_inv") (getitem_or_None options "operator")
          = if decide (lx_result out = lx_successful)
            then mret (lx_value out, promote (lx_result out))
            else raise RuntimeError).
  { rewrite (getitem_or_None_Some _ _ _ Hop). by apply newton_direction_operator. }
  assert (Hfail : lx_result out ≠ lx_successful →
            NewtonDescent_call linear_solve self step_size args options
              = raise RuntimeError).
  { intros Hne. unfold NewtonDescent_call.
    rewrite (getitem_Some _ _ _ Hv), py_bind_ret, Hdir.
    by rewrite decide_False. }
  assert (Hok : lx_result out = lx_successful →
            ∃ step,
              NewtonDescent_call linear_solve self step_size args options
                = mret (step, promote lx_successful)
              ∧ ∀ i, step !!! i =
                  s_mul (s_neg step_size)
                    (match nd_norm self with
                     | None => lx_value out !!! i
                     | Some norm => s_div (lx_value out !!! i) (norm (lx_value out))
                     end)).
  { intros Heq. rewrite decide_True in Hdir by done. rewrite Heq in Hdir.
    exact (NewtonDescent_call_leaves linear_solve self step_size args options
             _ _ _ Hv Hdir). }
  split; [exact Hok|]. split; [exact Hfail|].
  intros step result Hcall.
  destruct (decide (lx_result out = lx_successful)) as [Heq|Hne].
  - destruct (Hok Heq) as (step' & Hcall' & _).
    rewrite Hcall' in Hcall. by injection Hcall as _ <-.
  - rewrite (Hfail Hne) in Hcall. discriminate Hcall.
Qed.
End DescentRaises.

(** ** One iteration and the next *)

Section Iteration.
Context {Scalar : Type} `{!Arith Scalar} `{!Infinity Scalar} {n m : nat}.
Context {AbstractLinearSolver lx_RESULTS RESULTS : Type}.
Context `{!ResultsEnum RESULTS lx_RESULTS}.
Context {Args Aux AuxStruct Tags Descent LineSearch : Type}.
Context (sum_squares : vec Scalar m → Scalar).
Context (cauchy_termination :
  Scalar → Scalar → (vec Scalar n → Scalar) → vec Scalar n → vec Scalar n →
  Scalar → Scalar → RESULTS → bool * RESULTS).
Context (jvp : (vec Scalar n → vec Scalar m * Aux) → vec Scalar n → vec Scalar n → vec Scalar m).
Context (line_search :
  (vec Scalar n → Args → Scalar * Aux) → LineSearch → vec Scalar n → Args →
  gmap string (PyValue Scalar n m Aux Descent) → bool → bool →
  Solution (vec Scalar n) Aux Scalar RESULTS).
Implicit Types (self : AbstractGaussNewton Scalar (vec Scalar n) Descent LineSearch).
Implicit Types (fn : vec Scalar n → Args → vec Scalar m * Aux).
Implicit Types (y : vec Scalar n) (args : Args) (tags : Tags).
Implicit Types (options : gmap string (PyValue Scalar n m Aux Descent)).
Implicit Types (state : _GaussNewtonState Scalar (vec Scalar n) RESULTS).

Lemma step_options_eq self fn y args state :
  step_options sum_squares jvp self fn y args state =
    line_search_options self state (fst (fn y args))
      (FunctionLinearOperator (jvp (λ _y, fn _y args) y) (eval_shape y))
      (sum_squares (fst (fn y args))) (snd (fn y args)).
Proof. reflexivity. Qed.

(** X6. The options of the line search agree with its objective at [y]:
    ["f0"] and ["aux"] are the value and the auxiliary output of
    [_line_search_fn fn] at [y], ["f0"] is the sum of squares of ["vector"],
    and these two are also the [f_val] of the new state and the auxiliary
    output that [step] returns. *)
Theorem step_options_objective self fn y args options state tags :
  let line_search_options := step_options sum_squares jvp self fn y args state in
  let '(f0, aux) := _line_search_fn sum_squares fn y args in
  let '(_, new_state, aux_out) :=
    step sum_squares jvp line_search self fn y args options state tags in
  line_search_options !! "f0" = Some (VScalar f0)
  ∧ line_search_options !! "aux" = Some (VAux aux)
  ∧ (∃ residual, line_search_options !! "vector" = Some (VTree residual)
                 ∧ f0 = sum_squares residual)
  ∧ f_val new_state = f0
  ∧ aux_out = aux.
Proof.
  rewrite step_eq, step_options_eq. unfold _line_search_fn.
  destruct (line_search_options_lookup self state (fst (fn y args))
              (FunctionLinearOperator (jvp (λ _y, fn _y args) y) (eval_shape y))
              (sum_squares (fst (fn y args))) (snd (fn y args)))
    as (_ & Hvec & _ & _ & Hf0 & Haux & _).
  destruct (fn y args) as [residual aux] eqn:Hfn. cbn in *.
  split; [exact Hf0|]. split; [exact Haux|].
  split; [by exists residual|]. done.
Qed.

(** X7. The status of the new state is [successful] exactly when the line
    search succeeded or used up its step budget; every status that is not
    [successful] in the new state is the status of the line search itself. *)
Theorem step_result_successful_iff self fn y args options state tags :
  let line_sol := step_line_sol sum_squares jvp line_search self fn y args state in
  let new_state :=
    snd (fst (step sum_squares jvp line_search self fn y args options state tags)) in
  (result new_state = successful
   ↔ sol_result line_sol = successful
     ∨ sol_result line_sol = nonlinear_max_steps_reached)
  ∧ (result new_state ≠ successful → result new_state = sol_result line_sol).
Proof.
  rewrite step_eq. cbn. rewrite RESULTS_where_decide.
  case_decide as Hs; split.
  - split; [by right | done].
  - done.
  - split; [by left | by intros [?|?]].
  - done.
Qed.

(** X8. Where [successful] and [nonlinear_max_steps_reached] are two
    statuses, the new state of [step] never has the status
    [nonlinear_max_steps_reached]. *)
Theorem step_result_not_max_steps self fn y args options state tags :
  successful ≠@{RESULTS} nonlinear_max_steps_reached →
  result (snd (fst (step sum_squares jvp line_search self fn y args options state tags)))
    ≠ nonlinear_max_steps_reached.
Proof.
  intros Hne. rewrite step_eq. cbn. rewrite RESULTS_where_decide.
  by case_decide.
Qed.

(** X9. The first iteration: on the state of [init], the line search is
    started at the step size [1], and the new state has [f_prev = +infinity]
    beside the [f_val] of the objective at [y]. *)
Theorem step_after_init self fn y args options (f_struct : ShapeDtypeStruct)
    (aux_struct : AuxStruct) tags :
  let state := init self fn y args options f_struct aux_struct tags in
  let new_state :=
    snd (fst (step sum_squares jvp line_search self fn y args options state tags)) in
  step_options sum_squares jvp self fn y args state !! "init_step_size"
    = Some (VScalar s_one)
  ∧ f_prev new_state = jnp_inf
  ∧ f_val new_state = sum_squares (fst (fn y args)).
Proof.
  cbn zeta. rewrite step_eq, step_options_eq.
  split; [|done].
  by destruct (line_search_options_lookup self
              (init self fn y args options f_struct aux_struct tags) (fst (fn y args))
              (FunctionLinearOperator (jvp (λ _y, fn _y args) y) (eval_shape y))
              (sum_squares (fst (fn y args))) (snd (fn y args))) as (Hinit & _).
Qed.

(** X10. Two iterations in a row: the second line search is started at the
    step size that the first one recommended, at the point that the first one
    returned; the second state has for [f_prev] the objective at the first
    point, and for [f_val] the objective at the second. *)
Theorem step_after_step self fn y args options options' state tags tags' :
  let line_sol := step_line_sol sum_squares jvp line_search self fn y args state in
  let '(y1, state1, _) :=
    step sum_squares jvp line_search self fn y args options state tags in
  let '(_, state2, _) :=
    step sum_squares jvp line_search self fn y1 args options' state1 tags' in
  y1 = sol_value line_sol
  ∧ step_options sum_squares jvp self fn y1 args state1 !! "init_step_size"
      = Some (VScalar (next_init (sol_state line_sol)))
  ∧ f_prev state2 = sum_squares (fst (fn y args))
  ∧ f_val state2 = sum_squares (fst (fn y1 args)).
Proof.
  rewrite step_eq. cbv beta iota zeta.
  rewrite step_eq. cbv beta iota zeta.
  set (line_sol := step_line_sol sum_squares jvp line_search self fn y args state).
  set (state1 := {| step_size := next_init (sol_state line_sol) |}).
  split; [reflexivity|]. split; [|split; reflexivity].
  rewrite step_options_eq.
  by destruct (line_search_options_lookup self state1
              (fst (fn (sol_value line_sol) args))
              (FunctionLinearOperator (jvp (λ _y, fn _y args) (sol_value line_sol))
                 (eval_shape (sol_value line_sol)))
              (sum_squares (fst (fn (sol_value line_sol) args)))
              (snd (fn (sol_value line_sol) args))) as (Hinit & _).
Qed.

(** X11. What the termination test sees after a step: the tolerances and
    the norm of the solver, the update [new_y - y], the objective at the
    point [y] that the step started from (not at [new_y]), the objective of
    the state before, and the status after the downgrade; [fn], [args],
    [options] and [tags] play no part. *)
Theorem terminate_after_step self fn fn' y y' args args' options options' options''
    state tags tags' tags'' :
  let line_sol := step_line_sol sum_squares jvp line_search self fn y args state in
  let '(new_y, new_state, _) :=
    step sum_squares jvp line_search self fn y args options state tags in
  terminate cauchy_termination self fn y' args options' new_state tags'
    = cauchy_termination (gn_rtol self) (gn_atol self) (gn_norm self) y'
        (tree_sub new_y y) (sum_squares (fst (fn y args))) (f_val state)
        (if decide (sol_result line_sol = nonlinear_max_steps_reached)
         then successful else sol_result line_sol)
  ∧ terminate cauchy_termination self fn' y' args' options'' new_state tags''
    = terminate cauchy_termination self fn y' args options' new_state tags'.
Proof.
  rewrite step_eq. cbn zeta. unfold terminate. cbn.
  by rewrite RESULTS_where_decide.
Qed.
End Iteration.

(** ** The descent of [GaussNewton] *)

Section FullNewtonStep.
Context {Scalar : Type} `{!Arith Scalar} {n m : nat}.
Context {AbstractLinearSolver lx_RESULTS RESULTS : Type}.
Context `{!ResultsEnum RESULTS lx_RESULTS}.
Context {Args Aux Tags : Type}.
Context (AutoLinearSolver : option bool → AbstractLinearSolver).
Context (max_norm : vec Scalar n → Scalar).
Context (sum_squares : vec Scalar m → Scalar).
Context (jvp : (vec Scalar n → vec Scalar m * Aux) → vec Scalar n → vec Scalar n → vec Scalar m).

(** X12. Whatever norm and linear solver [GaussNewton] is built with, the
    norm goes to the solver alone.  [step] calls the line search, which is
    [LearningRate(1.0)], on options that hold a descent without a norm; and
    this descent, called on these options, returns the unnormalised step,
    leaf by leaf the product of [-step_size] and the solution of the
    linearized system at [y] for the residual, by the linear solver of the
    caller, when the solve succeeds, and raises what [lx.linear_solve]
    throws when it fails. *)
Theorem GaussNewton_descent_step (rtol atol : Scalar)
    (norm : option (vec Scalar n → Scalar))
    (linear_solver : option AbstractLinearSolver)
    (fn : vec Scalar n → Args → vec Scalar m * Aux) (y : vec Scalar n) (args : Args)
    (state : _GaussNewtonState Scalar (vec Scalar n) RESULTS) :
  let solver := GaussNewton_init AutoLinearSolver max_norm rtol atol norm linear_solver in
  let options := step_options sum_squares jvp solver fn y args state in
  let descent :=
    {| nd_norm := None;
       nd_linear_solver := default (AutoLinearSolver None) linear_solver |} in
  gn_norm solver = default max_norm norm
  ∧ (∀ (line_search :
          (vec Scalar n → Args → Scalar * Aux) → LearningRate Scalar → vec Scalar n →
          Args → gmap string (PyValue Scalar n m Aux
                                (NewtonDescent Scalar n AbstractLinearSolver)) →
          bool → bool → Solution (vec Scalar n) Aux Scalar RESULTS)
        caller_options (tags : Tags),
       fst (fst (step sum_squares jvp line_search solver fn y args caller_options
                   state tags))
       = sol_value (line_search (_line_search_fn sum_squares fn)
                      {| learning_rate := s_one |} y args options true false))
  ∧ options !! "descent" = Some (VDescent descent)
  ∧ ∀ (linear_solve : AbstractLinearOperator (vec Scalar n) (vec Scalar m) →
         vec Scalar m → AbstractLinearSolver → lx_Solution (vec Scalar n) lx_RESULTS)
      (step_size : Scalar) (args' : Args),
      let out :=
        linear_solve (FunctionLinearOperator (jvp (λ _y, fn _y args) y) (eval_shape y))
          (fst (fn y args)) (default (AutoLinearSolver None) linear_solver) in
      if decide (lx_result out = lx_successful)
      then
        ∃ step,
          NewtonDescent_call linear_solve descent step_size args' options
            = mret (step, promote (lx_result out))
          ∧ ∀ i, step !!! i = s_mul (s_neg step_size) (lx_value out !!! i)
      else
        NewtonDescent_call linear_solve descent step_size args' options
          = raise RuntimeError.
Proof.
  intros solver options descent.
  destruct (line_search_options_lookup solver state (fst (fn y args))
              (FunctionLinearOperator (jvp (λ _y, fn _y args) y) (eval_shape y))
              (sum_squares (fst (fn y args))) (snd (fn y args)))
    as (_ & Hvec & Hop & Hinv & _ & _ & _ & Hdescent).
  change (line_search_options _ _ _ _ _ _) with options in Hvec, Hop, Hinv, Hdescent.
  do 2 (split; [reflexivity|]). split; [exact Hdescent|].
  intros linear_solve step_size args' out.
  assert (Hdir : newton_direction linear_solve descent (VTree (fst (fn y args)))
            (getitem_or_None options "operator_inv") (getitem_or_None options "operator")
          = if decide (lx_result out = lx_successful)
            then mret (lx_value out, promote (lx_result out))
            else raise RuntimeError).
  { rewrite (getitem_or_None_Some _ _ _ Hinv), (getitem_or_None_Some _ _ _ Hop).
    by apply newton_direction_operator. }
  destruct (decide (lx_result out = lx_successful)) as [Hok|Hfail].
  - exact (NewtonDescent_call_leaves linear_solve descent step_size args' options
             _ _ _ Hvec Hdir).
  - unfold NewtonDescent_call.
    by rewrite (getitem_Some _ _ _ Hvec), py_bind_ret, Hdir.
Qed.
End FullNewtonStep.

(** ** Exact arithmetic *)

Section ExactIteration.
Local Open Scope R_scope.
Context {n m : nat} {AbstractLinearSolver lx_RESULTS RESULTS : Type}.
Context `{!ResultsEnum RESULTS lx_RESULTS}.
Context {Args Aux Tags Descent LineSearch : Type}.

Lemma tree_scale_scale {k} (a b : R) (v : vec R k) :
  tree_scale a (tree_scale b v) = tree_scale (a * b) v.
Proof.
  apply vec_eq. intros i. unfold tree_scale.
  rewrite !vlookup_map. cbn. ring.
Qed.

(** X13. In exact arithmetic the step is proportional to the step size:
    the call at [step_size] raises what the call at the step size [1]
    raises, and otherwise returns the step of that call scaled by
    [step_size], with the same status; with or without a norm. *)
Theorem NewtonDescent_call_step_size_scales
    (linear_solve : AbstractLinearOperator (vec R n) (vec R m) → vec R m →
       AbstractLinearSolver → lx_Solution (vec R n) lx_RESULTS)
    (self : NewtonDescent R n AbstractLinearSolver) (step_size : R) (args : Args)
    (options : gmap string (PyValue R n m Aux Descent)) :
  NewtonDescent_call linear_solve self step_size args options
  = NewtonDescent_call linear_solve self 1 args options
      ≫= (λ '(step, result), mret (tree_scale step_size step, result)).
Proof.
  unfold NewtonDescent_call, mbind, py_bind.
  destruct (getitem options "vector") as [e|vector]; [reflexivity|].
  destruct (newton_direction _ _ _ _ _) as [e|[newton result]]; [reflexivity|].
  cbn. rewrite tree_scale_scale. do 3 f_equal. ring.
Qed.

End ExactIteration.

(** ** Binary64 floats: a direction of length zero *)

Section FloatZero.

Lemma float_eqb_zero (x : float) :
  PrimFloat.eqb x 0 = true → ∃ s, Prim2SF x = S754_zero s.
Proof.
  rewrite FloatAxioms.eqb_spec.
  change (Prim2SF 0) with (S754_zero false).
  destruct (Prim2SF x) as [s|s| |s mx ex]; [by exists s|..]; try destruct s; discriminate.
Qed.

Lemma float_div_zero_zero (x c : float) :
  PrimFloat.eqb x 0 = true → PrimFloat.eqb c 0 = true → PrimFloat.div x c = nan.
Proof.
  intros [sx Hx]%float_eqb_zero [sc Hc]%float_eqb_zero.
  apply Prim2SF_inj. rewrite div_spec, Hx, Hc. reflexivity.
Qed.

Lemma float_mul_nan (x : float) : PrimFloat.mul x nan = nan.
Proof.
  apply Prim2SF_inj. rewrite mul_spec.
  change (Prim2SF nan) with S754_nan.
  by destruct (Prim2SF x).
Qed.

(** X15. On binary64 floats, when a norm is configured and the Newton
    direction has every leaf zero and the norm zero, the call still returns,
    with the status of the direction, and every leaf of the step is NaN, at
    every step size: the quotient [0 / 0] of the normalisation is not
    guarded. *)
Theorem NewtonDescent_call_zero_direction {n m : nat}
    {AbstractLinearSolver lx_RESULTS RESULTS Args Aux Descent : Type}
    `{!ResultsEnum RESULTS lx_RESULTS}
    (linear_solve : AbstractLinearOperator (vec float n) (vec float m) → vec float m →
       AbstractLinearSolver → lx_Solution (vec float n) lx_RESULTS)
    (self : NewtonDescent float n AbstractLinearSolver) (norm : vec float n → float)
    (step_size : float) (args : Args)
    (options : gmap string (PyValue float n m Aux Descent))
    (vector : PyValue float n m Aux Descent) (newton : vec float n) (result : RESULTS) :
  nd_norm self = Some norm →
  options !! "vector" = Some vector →
  newton_direction linear_solve self vector
    (getitem_or_None options "operator_inv") (getitem_or_None options "operator")
    = mret (newton, result) →
  (∀ i, PrimFloat.eqb (newton !!! i) 0 = true) →
  PrimFloat.eqb (norm newton) 0 = true →
  ∃ step,
    NewtonDescent_call linear_solve self step_size args options = mret (step, result)
    ∧ ∀ i, step !!! i = nan.
Proof.
  intros Hnorm Hv Hdir Hzero Hlen.
  eexists. split.
  - rewrite (NewtonDescent_call_direction _ _ _ _ _ _ _ _ Hv Hdir), Hnorm.
    reflexivity.
  - intros i. unfold tree_scale, tree_div. rewrite !vlookup_map. cbn.
    rewrite (float_div_zero_zero _ _ (Hzero i) Hlen).
    apply float_mul_nan.
Qed.
End FloatZero.

(** ** The further properties at concrete inputs *)

Lemma NewtonDescent_call_linear_solve_witness :
  (Binary64.options_operator 2 !! "vector" = Some (VTree [# 6%float; 8%float])
   ∧ is_present (Binary64.options_operator 2) "operator_inv" = false
   ∧ ∃ step,
       NewtonDescent_call Binary64.linear_solve Binary64.newton_descent 0.5%float tt
         (Binary64.options_operator 2) = mret (step, st_successful)
       ∧ ∀ i, step !!! i =
           PrimFloat.mul (PrimFloat.opp 0.5) ([# 3%float; 4%float] !!! i))
  ∧ NewtonDescent_call Binary64.linear_solve Binary64.newton_descent 0.5%float tt
      (Binary64.options_operator 0) = raise RuntimeError.
Proof.
  split; [split; [reflexivity|split; [reflexivity|]]|].
  - exact (proj1 (NewtonDescent_call_linear_solve Binary64.linear_solve
                    Binary64.newton_descent 0.5%float tt (Binary64.options_operator 2)
                    [# 6%float; 8%float] (Binary64.scaling 2 2%float)
                    eq_refl eq_refl eq_refl) eq_refl).
  - refine (proj1 (proj2 (NewtonDescent_call_linear_solve Binary64.linear_solve
                    Binary64.newton_descent 0.5%float tt (Binary64.options_operator 0)
                    [# 6%float; 8%float] (Binary64.scaling 2 0%float)
                    eq_refl eq_refl eq_refl)) _).
    vm_compute. discriminate.
Defined.

Lemma step_result_not_max_steps_witness :
  st_successful ≠ st_nonlinear_max_steps_reached
  ∧ result (snd (fst Binary64.step_exhausted)) ≠ st_nonlinear_max_steps_reached.
Proof.
  split; [discriminate|].
  refine (step_result_not_max_steps (Tags := unit) Binary64.sum_squares
            Binary64.jvp_affine Binary64.exhausted_line_search Binary64.solver
            (Binary64.shift_fn 3) Binary64.y0 tt ∅ Binary64.state0 tt _).
  discriminate.
Defined.

Lemma NewtonDescent_call_zero_direction_witness :
  ∃ step,
    NewtonDescent_call Binary64.linear_solve Binary64.newton_descent_max 0.5%float tt
      Binary64.options_zero = mret (step, st_successful)
    ∧ ∀ i, step !!! i = nan.
Proof.
  apply (NewtonDescent_call_zero_direction Binary64.linear_solve
           Binary64.newton_descent_max Binary64.max_norm 0.5%float tt
           Binary64.options_zero (VTree [# 0%float; 0%float])
           (mv (Binary64.scaling 2 0.5%float) [# 0%float; 0%float]) st_successful).
  - reflexivity.
  - reflexivity.
  - reflexivity.
  - intros i. inv_fin i; [reflexivity|]. intros i. inv_fin i; [reflexivity|].
    intros i. inv_fin i.
  - reflexivity.
Defined.

(** ** What [NewtonDescent.__call__] reads of the options *)

Section DescentReads.
Context {Scalar : Type} `{!Arith Scalar} {n m : nat}.
Context {AbstractLinearSolver lx_RESULTS RESULTS : Type}.
Context `{!ResultsEnum RESULTS lx_RESULTS}.
Context {Args Aux Descent : Type}.
Implicit Types (options : gmap string (PyValue Scalar n m Aux Descent)).
Implicit Types (value vector operator operator_inv : PyValue Scalar n m Aux Descent).
Implicit Types (self : NewtonDescent Scalar n AbstractLinearSolver).
Implicit Types (linear_solve :
  AbstractLinearOperator (vec Scalar n) (vec Scalar m) → vec Scalar m →
  AbstractLinearSolver → lx_Solution (vec Scalar n) lx_RESULTS).

(** The call is a function of three lookups. *)
Lemma NewtonDescent_call_lookups linear_solve self step_size (args : Args)
    options options' :
  options !! "vector" = options' !! "vector" →
  newton_direction linear_solve self (getitem_or_None options "vector")
    (getitem_or_None options "operator_inv") (getitem_or_None options "operator")
  = newton_direction linear_solve self (getitem_or_None options' "vector")
      (getitem_or_None options' "operator_inv") (getitem_or_None options' "operator") →
  NewtonDescent_call linear_solve self step_size args options
  = NewtonDescent_call linear_solve self step_size args options'.
Proof.
  intros Hv Hd. unfold NewtonDescent_call, getitem.
  unfold getitem_or_None at 1 4 in Hd. rewrite <- Hv in Hd |- *.
  destruct (options !! "vector") as [vector|]; [|reflexivity].
  by rewrite !py_bind_ret, Hd.
Qed.

Lemma getitem_or_None_insert_ne options key key' value :
  key ≠ key' →
  getitem_or_None (<[key := value]> options) key' = getitem_or_None options key'.
Proof. intros Hne. unfold getitem_or_None. by rewrite lookup_insert_ne. Qed.

Lemma getitem_or_None_delete_ne options key key' :
  key ≠ key' →
  getitem_or_None (delete key options) key' = getitem_or_None options key'.
Proof. intros Hne. unfold getitem_or_None. by rewrite lookup_delete_ne. Qed.

(** X16. The inverse operator has precedence: when [operator_inv] is
    present, the entry [operator] is not looked at, so binding ["operator"]
    to any value, or removing it, changes nothing of the call. *)
Theorem NewtonDescent_call_inverse_precedence linear_solve self step_size (args : Args)
    options value :
  is_present options "operator_inv" = true →
  NewtonDescent_call linear_solve self step_size args (<["operator" := value]> options)
    = NewtonDescent_call linear_solve self step_size args options
  ∧ NewtonDescent_call linear_solve self step_size args (delete "operator" options)
    = NewtonDescent_call linear_solve self step_size args options.
Proof.
  intros Hinv. unfold is_present in Hinv.
  split; apply NewtonDescent_call_lookups.
  - by rewrite lookup_insert_ne.
  - rewrite !getitem_or_None_insert_ne by done.
    unfold newton_direction. by rewrite Hinv.
  - by rewrite lookup_delete_ne.
  - rewrite !getitem_or_None_delete_ne by done.
    unfold newton_direction. by rewrite Hinv.
Qed.

(** X17. Of the options, the call reads ["vector"], ["operator_inv"] and
    ["operator"] and no other: binding any other key to any value, or
    removing it, changes nothing of the call. *)
Theorem NewtonDescent_call_other_keys linear_solve self step_size (args : Args)
    options key value :
  key ≠ "vector" → key ≠ "operator_inv" → key ≠ "operator" →
  NewtonDescent_call linear_solve self step_size args (<[key := value]> options)
    = NewtonDescent_call linear_solve self step_size args options
  ∧ NewtonDescent_call linear_solve self step_size args (delete key options)
    = NewtonDescent_call linear_solve self step_size args options.
Proof.
  intros Hv Hinv Hop.
  split; apply NewtonDescent_call_lookups.
  - by rewrite lookup_insert_ne.
  - by rewrite !getitem_or_None_insert_ne.
  - by rewrite lookup_delete_ne.
  - by rewrite !getitem_or_None_delete_ne.
Qed.
End DescentReads.

Lemma NewtonDescent_call_inverse_precedence_witness :
  is_present Binary64.options_inv "operator_inv" = true
  ∧ NewtonDescent_call Binary64.linear_solve Binary64.newton_descent 0.5%float tt
      (<["operator" := VBool true]> Binary64.options_inv)
    = NewtonDescent_call Binary64.linear_solve Binary64.newton_descent 0.5%float tt
        Binary64.options_inv.
Proof.
  split; [reflexivity|].
  refine (proj1 (NewtonDescent_call_inverse_precedence Binary64.linear_solve
                   Binary64.newton_descent 0.5%float tt Binary64.options_inv
                   (VBool true) _)).
  reflexivity.
Defined.

Lemma NewtonDescent_call_other_keys_witness :
  NewtonDescent_call Binary64.linear_solve Binary64.newton_descent 0.5%float tt
    (<["f0" := VScalar 1%float]> Binary64.options_inv)
  = NewtonDescent_call Binary64.linear_solve Binary64.newton_descent 0.5%float tt
      Binary64.options_inv.
Proof.
  refine (proj1 (NewtonDescent_call_other_keys Binary64.linear_solve
                   Binary64.newton_descent 0.5%float tt Binary64.options_inv
                   "f0" (VScalar 1%float) _ _ _)); discriminate.
Defined.

(** ** What [step] reads of the state *)

Section StepReads.
Context {Scalar : Type} `{!Arith Scalar} {n m : nat}.
Context {lx_RESULTS RESULTS : Type} `{!ResultsEnum RESULTS lx_RESULTS}.
Context {Args Aux Tags Descent LineSearch : Type}.
Context (sum_squares : vec Scalar m → Scalar).
Context (jvp : (vec Scalar n → vec Scalar m * Aux) → vec Scalar n → vec Scalar n → vec Scalar m).
Context (line_search :
  (vec Scalar n → Args → Scalar * Aux) → LineSearch → vec Scalar n → Args →
  gmap string (PyValue Scalar n m Aux Descent) → bool → bool →
  Solution (vec Scalar n) Aux Scalar RESULTS).

(** X18. Of the incoming state, [step] reads the step size and [f_val]: two
    states that agree on these give the same point, the same new state and
    the same auxiliary output.  The [diff], the [f_prev] and the status of
    the incoming state are not read; a failure recorded in the incoming
    state is not carried into the new one. *)
Theorem step_state_reads
    (self : AbstractGaussNewton Scalar (vec Scalar n) Descent LineSearch)
    (fn : vec Scalar n → Args → vec Scalar m * Aux) (y : vec Scalar n) (args : Args)
    (options : gmap string (PyValue Scalar n m Aux Descent))
    (state state' : _GaussNewtonState Scalar (vec Scalar n) RESULTS) (tags : Tags) :
  step_size state = step_size state' →
  f_val state = f_val state' →
  step sum_squares jvp line_search self fn y args options state tags
  = step sum_squares jvp line_search self fn y args options state' tags.
Proof.
  intros Hsize Hval. rewrite !step_eq.
  assert (Hsol : step_line_sol sum_squares jvp line_search self fn y args state
                 = step_line_sol sum_squares jvp line_search self fn y args state').
  { unfold step_line_sol, step_options, jax_linearize, line_search_options.
    by rewrite Hsize. }
  cbv zeta. by rewrite Hsol, Hval.
Qed.
End StepReads.

Lemma step_state_reads_witness :
  let failed :=
    {| step_size := 1%float; diff := [# 0%float]; f_val := infinity;
       f_prev := 0%float; result := st_linear_failure singular |} in
  step (Tags := unit) Binary64.sum_squares Binary64.jvp_affine Binary64.line_search
    Binary64.solver (Binary64.shift_fn 3) Binary64.y0 tt ∅ Binary64.state0 tt
  = step (Tags := unit) Binary64.sum_squares Binary64.jvp_affine Binary64.line_search
      Binary64.solver (Binary64.shift_fn 3) Binary64.y0 tt ∅ failed tt.
Proof.
  intros failed.
  apply (step_state_reads (Tags := unit) Binary64.sum_squares Binary64.jvp_affine
           Binary64.line_search Binary64.solver (Binary64.shift_fn 3) Binary64.y0 tt ∅
           Binary64.state0 failed tt); reflexivity.
Defined.
